(** * DocumentUpload: a shallow embedding of the upload form component

    Source: [Front-end/proposal-frontend/components/DocumentUpload.js].

    The component owns ten pieces of React state and five functions
    ([handleFileChange], [handleSubmit], [handleReset],
    [renderDecisionBadge], [formatINR]).  The handlers are embedded as
    computations in a small state-and-trace monad: the state is the record of
    the ten [useState] cells, the trace records the observable side effects
    (alert dialogs, the POST request, console output, writes to the file
    input).  Values a handler reads from its render closure are passed as an
    explicit snapshot, because [handleSubmit] reads [fileName] after its
    [await], when the live state may already have moved on. *)

From Stdlib Require Import Ascii String DecimalString QArith Qabs Qround SpecFloat.
From stdpp Require Import base strings list gmap.

Local Open Scope string_scope.
Local Open Scope list_scope.

(** ** JavaScript values: strings, numbers, object literals *)

Module Js.

(** [String.prototype.toLowerCase], on the ASCII range.  The bytes of a
    non-ASCII character are left as they are; no character outside ASCII
    lower-cases to a letter of an allowed extension, so membership in
    [allowedExtensions] is decided as in the browser. *)
Definition lower_ascii (c : ascii) : ascii :=
  let n := nat_of_ascii c in
  if (65 <=? n)%nat && (n <=? 90)%nat then ascii_of_nat (n + 32) else c.

Fixpoint toLowerCase (s : string) : string :=
  match s with
  | EmptyString => EmptyString
  | String c r => String (lower_ascii c) (toLowerCase r)
  end.

(** [s.split(sep)] for a one-character separator: always a non-empty
    array, with an empty string between adjacent separators. *)
Fixpoint split (sep : ascii) (s : string) : list string :=
  match s with
  | EmptyString => [EmptyString]
  | String c r =>
      if Ascii.eqb c sep then EmptyString :: split sep r
      else match split sep r with
           | [] => [String c EmptyString]
           | seg :: segs => String c seg :: segs
           end
  end.

(** [Array.prototype.pop]: the last element, [undefined] on an empty
    array. *)
Definition pop {A} (l : list A) : option A := last l.

(** Truthiness of a string: only the empty string is falsy. *)
Definition truthy_string (s : string) : bool :=
  match s with EmptyString => false | _ => true end.

(** [arr.includes(x)] on an array of strings. *)
Definition includes (arr : list string) (x : string) : bool :=
  bool_decide (x ∈ arr).

(** JavaScript numbers: the doubles are rationals, plus the three special
    values ([-0] is identified with [0]; both are falsy and not positive). *)
Inductive number : Type :=
| NaN
| Infinity
| NegInfinity
| Fin (q : Q).

Definition truthy_number (n : number) : bool :=
  match n with
  | NaN => false
  | Infinity | NegInfinity => true
  | Fin q => negb (Qeq_bool q 0)
  end.

(** [n <= 0] *)
Definition le_zero (n : number) : bool :=
  match n with
  | NaN => false
  | Infinity => false
  | NegInfinity => true
  | Fin q => Qle_bool q 0
  end.

(** Arithmetic on doubles, where the source computes with them: IEEE 754
    binary64 as the standard library specifies it (53 bits of precision,
    round to nearest, ties to even). *)
Definition double : Type := spec_float.

(** The double of an integer literal. *)
Definition ofZ (z : Z) : double := binary_normalize 53 1024 z 0 false.

(** [x * y] *)
Definition mul (x y : double) : double := SFmul 53 1024 x y.

(** [x / y] *)
Definition div (x y : double) : double := SFdiv 53 1024 x y.

(** [Math.floor(x)]; a finite double is [±m * 2^e], and shifting an
    integer right rounds it down. *)
Definition floor (x : double) : number :=
  match x with
  | S754_nan => NaN
  | S754_infinity false => Infinity
  | S754_infinity true => NegInfinity
  | S754_zero _ => Fin 0
  | S754_finite s m e => Fin (inject_Z (Z.shiftl (cond_Zopp s (Zpos m)) e))
  end.

(** The values [evaluation.decision] can hold when it is used as a
    property key: absent, [null], a boolean or a string. *)
Inductive value : Type :=
| undefined
| null
| boolean (b : bool)
| str (s : string).

(** [ToPropertyKey]: the string a value is looked up under. *)
Definition toPropertyKey (v : value) : string :=
  match v with
  | undefined => "undefined"
  | null => "null"
  | boolean true => "true"
  | boolean false => "false"
  | str s => s
  end.

(** The properties every object literal inherits from
    [Object.prototype].  Each of them holds a function, or for
    [__proto__] the prototype object itself: all are truthy. *)
Definition Object_prototype : list string :=
  [ "constructor"; "hasOwnProperty"; "isPrototypeOf"; "propertyIsEnumerable";
    "toLocaleString"; "toString"; "valueOf"; "__proto__";
    "__defineGetter__"; "__defineSetter__";
    "__lookupGetter__"; "__lookupSetter__" ].

(** The result of reading [obj[key]] on an object literal. *)
Inductive property (V : Type) : Type :=
| Absent                      (* undefined *)
| Own (v : V)                 (* a property of the literal itself *)
| Inherited (name : string).  (* found on [Object.prototype] *)
Arguments Absent {V}.
Arguments Own {V} v.
Arguments Inherited {V} name.

(** [obj[key]]: own properties first, then the prototype chain. *)
Definition get {V} (obj : gmap string V) (key : value) : property V :=
  let k := toPropertyKey key in
  match obj !! k with
  | Some v => Own v
  | None => if bool_decide (k ∈ Object_prototype) then Inherited k else Absent
  end.

(** [p || q], where [truthy] tells which own values are truthy. *)
Definition or_else {V} (truthy : V → bool) (p q : property V) : property V :=
  match p with
  | Absent => q
  | Own v => if truthy v then p else q
  | Inherited _ => p
  end.

End Js.

(** ** The view model *)

Record File : Type := mkFile { name : string; content : string }.

Record Keyword : Type := mkKeyword {
  keyword : string;
  relevance_score : Js.number }.

Record Evaluation : Type := mkEvaluation {
  decision : Js.value;
  technical_fit_score : Js.number;
  budget_fit_score : Js.number;
  timeline_fit_score : Js.number;
  capacity_fit_score : Js.number;
  overall_fit_score : Js.number;
  reasoning : string }.

Record Metadata : Type := mkMetadata {
  budget_in_inr : option Js.number;
  timeline_weeks : option Js.number;
  team_size_required : option Js.number;
  extraction_confidence : option string;
  extraction_notes : option string }.

(** The object built by [setDocumentInfo({...})]. *)
Module info.
Record t : Type := mk {
  filename : string;
  upload_date : string;
  keyword_count : nat;
  id : Js.number;
  status : string }.
End info.

(** [response.data]: every field is optional ([None] is an absent
    field). *)
Module data.
Record t : Type := mk {
  filename : option string;
  upload_date : option string;
  id : option Js.number;
  status : option string;
  keywords : option (list Keyword);
  summary : option string;
  evaluation : option Evaluation;
  rfp_metadata : option Metadata }.
End data.

(** The ten [useState] cells, in declaration order. *)
Record State : Type := mkState {
  file : option File;
  fileName : string;
  loading : bool;
  keywords : list Keyword;
  error : string;
  documentInfo : option info.t;
  summary : string;
  evaluation : option Evaluation;
  extractedMetadata : option Metadata;
  isSuccess : bool }.

(** The arguments of the [useState] calls. *)
Definition initialState : State :=
  {| file := None; fileName := ""; loading := false; keywords := [];
     error := ""; documentInfo := None; summary := ""; evaluation := None;
     extractedMetadata := None; isSuccess := false |}.

(** ** Effects *)

Inductive Effect : Type :=
| PreventDefault
| Alert (msg : string)
| SetInputValue (v : string)                 (* e.target.value = v *)
| Post (url : string) (form : list (string * File))
       (headers : list (string * string))    (* axios.post(url, formData, {headers}) *)
| ConsoleError (msg : string).

(** What a [throw] carries into the [catch] block. *)
Inductive Thrown : Type :=
| RequestFailed (reason : string)   (* network error or non-2xx status *)
| TypeError (msg : string).

Inductive Completion (A : Type) : Type :=
| Normal (a : A)
| Throw (e : Thrown).
Arguments Normal {A} a.
Arguments Throw {A} e.

(** A handler body: it transforms the state cells and appends to the trace;
    it completes normally or by throwing. *)
Definition M (A : Type) : Type := State → Completion A * State * list Effect.

#[export] Instance M_ret : MRet M := λ A a s, (Normal a, s, []).

#[export] Instance M_bind : MBind M := λ A B k m s,
  match m s with
  | (Normal a, s1, t1) =>
      match k a s1 with (r, s2, t2) => (r, s2, t1 ++ t2) end
  | (Throw e, s1, t1) => (Throw e, s1, t1)
  end.

Definition throw {A} (e : Thrown) : M A := λ s, (Throw e, s, []).

Definition emit (e : Effect) : M unit := λ s, (Normal (), s, [e]).

Definition modify (f : State → State) : M unit := λ s, (Normal (), f s, []).

(** [try { body } catch (err) { handler err } finally { final }] *)
Definition try_catch_finally (body : M unit) (handler : Thrown → M unit)
    (final : M unit) : M unit := λ s,
  match body s with
  | (Normal _, s1, t1) =>
      match final s1 with (r, s2, t2) => (r, s2, t1 ++ t2) end
  | (Throw e, s1, t1) =>
      match handler e s1 with
      | (Normal _, s2, t2) =>
          match final s2 with (r, s3, t3) => (r, s3, t1 ++ t2 ++ t3) end
      | (Throw e', s2, t2) =>
          match final s2 with
          | (Normal _, s3, t3) => (Throw e', s3, t1 ++ t2 ++ t3)
          | (Throw e'', s3, t3) => (Throw e'', s3, t1 ++ t2 ++ t3)
          end
      end
  end.

(** The state setters returned by [useState]. *)
Definition setFile (v : option File) : M unit :=
  modify (λ s, mkState v (fileName s) (loading s) (keywords s) (error s)
    (documentInfo s) (summary s) (evaluation s) (extractedMetadata s) (isSuccess s)).
Definition setFileName (v : string) : M unit :=
  modify (λ s, mkState (file s) v (loading s) (keywords s) (error s)
    (documentInfo s) (summary s) (evaluation s) (extractedMetadata s) (isSuccess s)).
Definition setLoading (v : bool) : M unit :=
  modify (λ s, mkState (file s) (fileName s) v (keywords s) (error s)
    (documentInfo s) (summary s) (evaluation s) (extractedMetadata s) (isSuccess s)).
Definition setKeywords (v : list Keyword) : M unit :=
  modify (λ s, mkState (file s) (fileName s) (loading s) v (error s)
    (documentInfo s) (summary s) (evaluation s) (extractedMetadata s) (isSuccess s)).
Definition setError (v : string) : M unit :=
  modify (λ s, mkState (file s) (fileName s) (loading s) (keywords s) v
    (documentInfo s) (summary s) (evaluation s) (extractedMetadata s) (isSuccess s)).
Definition setDocumentInfo (v : option info.t) : M unit :=
  modify (λ s, mkState (file s) (fileName s) (loading s) (keywords s) (error s)
    v (summary s) (evaluation s) (extractedMetadata s) (isSuccess s)).
Definition setSummary (v : string) : M unit :=
  modify (λ s, mkState (file s) (fileName s) (loading s) (keywords s) (error s)
    (documentInfo s) v (evaluation s) (extractedMetadata s) (isSuccess s)).
Definition setEvaluation (v : option Evaluation) : M unit :=
  modify (λ s, mkState (file s) (fileName s) (loading s) (keywords s) (error s)
    (documentInfo s) (summary s) v (extractedMetadata s) (isSuccess s)).
Definition setExtractedMetadata (v : option Metadata) : M unit :=
  modify (λ s, mkState (file s) (fileName s) (loading s) (keywords s) (error s)
    (documentInfo s) (summary s) (evaluation s) v (isSuccess s)).
Definition setIsSuccess (v : bool) : M unit :=
  modify (λ s, mkState (file s) (fileName s) (loading s) (keywords s) (error s)
    (documentInfo s) (summary s) (evaluation s) (extractedMetadata s) v).

(** The state and the trace a handler leaves behind. *)
Definition stateOf {A} (r : Completion A * State * list Effect) : State := r.1.2.
Definition traceOf {A} (r : Completion A * State * list Effect) : list Effect := r.2.

(** ** handleFileChange *)

(** The change event: [e.target.files] (an absent or empty [FileList] is
    the empty list). *)
Record ChangeEvent : Type := mkChange { files : list File }.

Definition allowedExtensions : list string := ["pdf"; "docx"; "txt"].

(** [selectedFile.name.split('.').pop()?.toLowerCase()] *)
Definition fileExtension (f : File) : option string :=
  Js.toLowerCase <$> Js.pop (Js.split "." (name f)).

Definition invalidTypeMessage : string :=
  "Invalid file type. Please select a PDF, DOCX, or TXT file.".

Definition handleFileChange (e : ChangeEvent) : M unit :=
  let selectedFile := head (files e) in
  setIsSuccess false ;;
  match selectedFile with
  | Some selectedFile =>
      let fileExtension := fileExtension selectedFile in
      if match fileExtension with
         | Some ext => Js.truthy_string ext && Js.includes allowedExtensions ext
         | None => false
         end
      then
        setFile (Some selectedFile) ;;
        setFileName (name selectedFile) ;;
        setError ""
      else
        emit (Alert invalidTypeMessage) ;;
        emit (SetInputValue "") ;;
        setFile None ;;
        setFileName ""
  | None => mret ()
  end.

(** ** handleSubmit *)

(** How [await axios.post(...)] settles.  [Rejected] is a network error or
    a status outside 2xx.  [Resolved None] is a 2xx response whose body
    parsed to [null]: reading [response.data.filename] then throws a
    [TypeError] inside the [try] block. *)
Inductive Response : Type :=
| Rejected (reason : string)
| Resolved (d : option data.t).

(** The two impure reads of the success branch. *)
Record Env : Type := mkEnv {
  now : string;     (* new Date().toISOString() *)
  random : Js.double   (* Math.random(), a double in [0, 1) *) }.

Definition uploadUrl : string := "http://localhost:8000/api/documents/upload/".

Definition noFileMessage : string := "Please select a file to upload.".

Definition uploadFailedMessage : string :=
  "Failed to upload and process document. Please try again. Check server status.".

(** [x || dflt] for an optional string field. *)
Definition or_string (x : option string) (dflt : string) : string :=
  match x with
  | Some s => if Js.truthy_string s then s else dflt
  | None => dflt
  end.

(** [x || dflt] for an optional number field. *)
Definition or_number (x : option Js.number) (dflt : Js.number) : Js.number :=
  match x with
  | Some n => if Js.truthy_number n then n else dflt
  | None => dflt
  end.

(** [Math.floor(Math.random() * 1000)] *)
Definition randomId (env : Env) : Js.number :=
  Js.floor (Js.mul (random env) (Js.ofZ 1000)).

(** The rest of [handleSubmit] after the [await]: the [try] body from the
    settled request on, the [catch] block and the [finally] block.  [c] is
    the render closure of the call ([fileName] is read from it). *)
Definition handleSubmit_resume (c : State) (env : Env) (r : Response) : M unit :=
  try_catch_finally
    (match r with
     | Rejected reason => throw (RequestFailed reason)
     | Resolved None => throw (TypeError "response.data is null")
     | Resolved (Some d) =>
         setDocumentInfo (Some {|
           info.filename := or_string (data.filename d) (fileName c);
           info.upload_date := or_string (data.upload_date d) (now env);
           info.keyword_count :=
             match data.keywords d with Some ks => length ks | None => 0%nat end;
           info.id := or_number (data.id d) (randomId env);
           info.status := or_string (data.status d) "PROCESSED" |}) ;;
         setKeywords (default [] (data.keywords d)) ;;
         setSummary (or_string (data.summary d) "") ;;
         setEvaluation (data.evaluation d) ;;
         setExtractedMetadata (data.rfp_metadata d) ;;
         setIsSuccess true
     end)
    (λ err,
       emit (ConsoleError "Error uploading file:") ;;
       setError uploadFailedMessage ;;
       setIsSuccess false)
    (setLoading false).

(** [handleSubmit] up to its [await].  It returns [None] when it returned
    early, and otherwise the continuation that runs once the request has
    settled. *)
Definition handleSubmit (c : State) : M (option (Env → Response → M unit)) :=
  emit PreventDefault ;;
  match file c with
  | None =>
      emit (Alert noFileMessage) ;;
      mret None
  | Some f =>
      setLoading true ;;
      setIsSuccess false ;;
      setError "" ;;
      setKeywords [] ;;
      setDocumentInfo None ;;
      setSummary "" ;;
      setEvaluation None ;;
      setExtractedMetadata None ;;
      let formData := [("file", f)] in
      emit (Post uploadUrl formData [("Content-Type", "multipart/form-data")]) ;;
      mret (Some (handleSubmit_resume c))
  end.

(** ** handleReset *)

Definition handleReset : M unit :=
  setFile None ;;
  setFileName "" ;;
  setLoading false ;;
  setError "" ;;
  setKeywords [] ;;
  setDocumentInfo None ;;
  setSummary "" ;;
  setEvaluation None ;;
  setExtractedMetadata None ;;
  setIsSuccess false.

(** ** What the render shows *)

(** [keywords.length > 0 || evaluation || extractedMetadata || summary] *)
Definition hasResults (s : State) : bool :=
  negb (bool_decide (keywords s = [])) || bool_decide (is_Some (evaluation s))
  || bool_decide (is_Some (extractedMetadata s)) || Js.truthy_string (summary s).

(** [disabled={!file || loading}] on the submit button. *)
Definition submitDisabled (s : State) : bool :=
  negb (bool_decide (is_Some (file s))) || loading s.

(** [disabled={loading}] on the reset button. *)
Definition resetDisabled (s : State) : bool := loading s.

(** [hasResults && documentInfo &&], the document information section. *)
Definition documentInfoShown (s : State) : bool :=
  hasResults s && bool_decide (is_Some (documentInfo s)).

(** ** One submission, from the click to the settled request *)

(** An event handler is called with the closure of the latest render, which
    holds the current state. *)
Definition fire {A} (h : State → M A) : M A := λ s, h s s.

(** Change events of the file input that arrive while the request is in
    flight (the input is never disabled; both buttons are). *)
Fixpoint fileChanges (evs : list ChangeEvent) : M unit :=
  match evs with
  | [] => mret ()
  | e :: evs => handleFileChange e ;; fileChanges evs
  end.

Definition submission (evs : list ChangeEvent) (env : Env) (r : Response) : M unit :=
  k ← fire handleSubmit ;
  match k with
  | None => mret ()
  | Some k => fileChanges evs ;; k env r
  end.

(** ** renderDecisionBadge *)

Record Style : Type := mkStyle { backgroundColor : string; color : string }.

(** The [<span>] element returned by [renderDecisionBadge]. *)
Record Badge : Type := mkBadge {
  className : string;
  style : Js.property Style;
  children : Js.property string }.

Definition decisionText : gmap string string :=
  <["ACCEPT" := "ACCEPT ✅"]> (<["REJECT" := "REJECT ❌"]> (<["REVIEW" := "REVIEW ⚠️"]> ∅)).

Definition styleMap : gmap string Style :=
  <["ACCEPT" := mkStyle "var(--success-bg)" "var(--success-color)"]>
  (<["REJECT" := mkStyle "var(--error-bg)" "var(--error-color)"]>
  (<["REVIEW" := mkStyle "var(--warning-bg)" "var(--warning-color)"]> ∅)).

Definition renderDecisionBadge (decision : Js.value) : Badge :=
  let badgeStyle :=
    Js.or_else (λ _, true) (Js.get styleMap decision) (Js.get styleMap (Js.str "REVIEW")) in
  let text :=
    Js.or_else Js.truthy_string (Js.get decisionText decision)
      (Js.get decisionText (Js.str "REVIEW")) in
  {| className := "decisionBadge"; style := badgeStyle; children := text |}.

(** ** formatINR *)

Module Intl.

(** Decimal digits of a natural number. *)
Definition digits (n : N) : string := NilZero.string_of_uint (N.to_uint n).

(** Commas after every two characters of a reversed digit sequence. *)
Fixpoint twos (l : list ascii) : list ascii :=
  match l with
  | x :: y :: tl =>
      match tl with
      | [] => [x; y]
      | _ :: _ => x :: y :: ","%char :: twos tl
      end
  | _ => l
  end.

(** The grouping of the [en-IN] locale: the last three digits, then
    groups of two. *)
Definition group (ds : string) : string :=
  match reverse (list_ascii_of_string ds) with
  | a :: b :: c :: (_ :: _) as tl =>
      string_of_list_ascii (reverse (a :: b :: c :: ","%char :: twos tl))
  | _ => ds
  end.

(** Rounding mode [halfExpand] at zero fraction digits, on the
    magnitude. *)
Definition round (q : Q) : N := Z.to_N (Qfloor (Qabs q + (1 # 2))%Q).

(** [new Intl.NumberFormat('en-IN', { style: 'currency', currency: 'INR',
    maximumFractionDigits: 0 }).format(n)] *)
Definition format (n : Js.number) : string :=
  match n with
  | Js.NaN => "₹NaN"
  | Js.Infinity => "₹∞"
  | Js.NegInfinity => "-₹∞"
  | Js.Fin q =>
      (if Qle_bool 0 q then "" else "-") +:+ "₹" +:+ group (digits (round q))
  end.

End Intl.

(** [value] is [None] when the field is absent or [null]. *)
Definition formatINR (value : option Js.number) : string :=
  match value with
  | None => "Unknown"
  | Some n =>
      if negb (Js.truthy_number n) || Js.le_zero n then "Unknown"
      else Intl.format n
  end.

(** ** Vocabulary of the properties *)

(** The set of extensions as the specification lists it. *)
Definition spec_extensions : list string := ["pdf"; "docx"; "doc"; "txt"].

(** The extension of [f], compared case-insensitively, is in [exts]. *)
Definition extensionIn (exts : list string) (f : File) : Prop :=
  ∃ ext, fileExtension f = Some ext ∧ ext ∈ exts.

(** The outcome of a change event that takes the file [f]: the file and
    its name are stored, the error is cleared, nothing is shown. *)
Definition accepted (f : File) (r : Completion () * State * list Effect) : Prop :=
  file (stateOf r) = Some f ∧ fileName (stateOf r) = name f
  ∧ error (stateOf r) = "" ∧ traceOf r = [].

(** The outcome of a change event that refuses the file: a blocking
    alert, the file input emptied, the selection cleared. *)
Definition rejected (r : Completion () * State * list Effect) : Prop :=
  traceOf r = [Alert invalidTypeMessage; SetInputValue ""]
  ∧ file (stateOf r) = None ∧ fileName (stateOf r) = "".

Definition isPost (e : Effect) : bool :=
  match e with Post _ _ _ => true | _ => false end.

(** No request is issued along a trace. *)
Definition noRequest (t : list Effect) : Prop := Forall (λ e, isPost e = false) t.

(** Every result field is empty. *)
Definition resultsCleared (s : State) : Prop :=
  keywords s = [] ∧ documentInfo s = None ∧ summary s = ""
  ∧ evaluation s = None ∧ extractedMetadata s = None.

(** The fields a change event never writes. *)
Definition sameResults (s s' : State) : Prop :=
  loading s' = loading s ∧ keywords s' = keywords s
  ∧ documentInfo s' = documentInfo s ∧ summary s' = summary s
  ∧ evaluation s' = evaluation s ∧ extractedMetadata s' = extractedMetadata s.

(** Every field other than the selection ([file], [fileName]) keeps its
    value. *)
Definition othersRetained (s s' : State) : Prop :=
  sameResults s s' ∧ error s' = error s ∧ isSuccess s' = isSuccess s.

(** The three presentations of the decision badge. *)
Definition acceptBadge : Badge :=
  mkBadge "decisionBadge"
    (Js.Own (mkStyle "var(--success-bg)" "var(--success-color)")) (Js.Own "ACCEPT ✅").
Definition rejectBadge : Badge :=
  mkBadge "decisionBadge"
    (Js.Own (mkStyle "var(--error-bg)" "var(--error-color)")) (Js.Own "REJECT ❌").
Definition reviewBadge : Badge :=
  mkBadge "decisionBadge"
    (Js.Own (mkStyle "var(--warning-bg)" "var(--warning-color)")) (Js.Own "REVIEW ⚠️").





(** ** Sample inputs *)

Definition rfpPdf : File := mkFile "rfp-2024.PDF" "%PDF-1.7".
Definition proposalDoc : File := mkFile "proposal.doc" "legacy word file".
Definition setupExe : File := mkFile "setup.exe" "MZ".

(** A file has been chosen, nothing submitted yet. *)
Definition chosenState : State :=
  {| file := Some rfpPdf; fileName := "rfp-2024.PDF"; loading := false;
     keywords := []; error := ""; documentInfo := None; summary := "";
     evaluation := None; extractedMetadata := None; isSuccess := false |}.

(** The clock and the random source of the samples; [Math.random()]
    returns the double [0.437]. *)
Definition sampleEnv : Env :=
  mkEnv "2024-05-01T10:00:00.000Z" (Js.div (Js.ofZ 437) (Js.ofZ 1000)).

(** A response that carries keywords and a summary and nothing else. *)
Definition sparseData : data.t :=
  {| data.filename := None; data.upload_date := None; data.id := None;
     data.status := None;
     data.keywords := Some [mkKeyword "cloud migration" (Js.Fin (873 # 1000));
                            mkKeyword "kubernetes" (Js.Fin (1 # 2))];
     data.summary := Some "Migration of a billing system.";
     data.evaluation := None; data.rfp_metadata := None |}.

(** The state a successful upload of [rfpPdf] leaves behind. *)
Definition uploadedState : State :=
  stateOf (submission [] sampleEnv (Resolved (Some sparseData)) chosenState).

(** ** More of the render *)

(** [{error && <div className={styles.errorMessage}>...}] *)
Definition errorShown (s : State) : bool := Js.truthy_string (error s).

(** [{(file || hasResults) && <button ... onClick={handleReset}>}] *)
Definition resetShown (s : State) : bool :=
  bool_decide (is_Some (file s)) || hasResults s.

(** [{!loading && !hasResults && !error && <div className={styles.emptyState}>}] *)
Definition emptyStateShown (s : State) : bool :=
  negb (loading s) && negb (hasResults s) && negb (Js.truthy_string (error s)).

(** The component while the request is pending: [handleSubmit] has run up
    to its [await], and the change events [evs] have arrived since. *)
Definition pending (evs : list ChangeEvent) : M unit :=
  fire handleSubmit ;; fileChanges evs.

(** The two selection cells agree: [fileName] is the name of the selected
    file, and empty when there is none. *)
Definition inSync (s : State) : Prop :=
  match file s with
  | Some f => fileName s = name f
  | None => fileName s = ""
  end.

(** The request [handleSubmit] sends for the file [f]. *)
Definition uploadRequest (f : File) : Effect :=
  Post uploadUrl [("file", f)] [("Content-Type", "multipart/form-data")].

(** A response succeeded when it resolved with a body. *)
Definition succeeded (r : Response) : bool :=
  match r with Resolved (Some _) => true | _ => false end.

(** More sample inputs. *)
Definition notesTxt : File := mkFile "notes.txt" "plain text".

(** A response with a body and no field at all. *)
Definition emptyData : data.t :=
  {| data.filename := None; data.upload_date := None; data.id := None;
     data.status := None; data.keywords := None; data.summary := None;
     data.evaluation := None; data.rfp_metadata := None |}.

(** A response whose fields are all present. *)
Definition fullData : data.t :=
  {| data.filename := Some "stored-rfp.pdf";
     data.upload_date := Some "2024-04-30T08:15:00Z";
     data.id := Some (Js.Fin 42);
     data.status := Some "DONE";
     data.keywords := Some [mkKeyword "erp" (Js.Fin (9 # 10))];
     data.summary := Some "An ERP roll-out.";
     data.evaluation :=
       Some (mkEvaluation (Js.str "ACCEPT") (Js.Fin 80) (Js.Fin 70) (Js.Fin 60)
               (Js.Fin 90) (Js.Fin 75) "Good fit.");
     data.rfp_metadata :=
       Some (mkMetadata (Some (Js.Fin 500000)) (Some (Js.Fin 12))
               (Some (Js.Fin 5)) (Some "HIGH") None) |}.

(** A response whose scalar fields are present and falsy. *)
Definition falsyData : data.t :=
  {| data.filename := Some ""; data.upload_date := Some "";
     data.id := Some (Js.Fin 0); data.status := Some "";
     data.keywords := Some []; data.summary := Some "";
     data.evaluation := None; data.rfp_metadata := None |}.

(** * Properties *)

(** ** File names and extensions *)

Lemma split_nonempty sep s : Js.split sep s ≠ [].
Proof.
  destruct s as [|c r]; simpl; [done|].
  destruct (Ascii.eqb c sep); [done|]. by destruct (Js.split sep r).
Qed.

Lemma split_no_sep sep s :
  sep ∉ list_ascii_of_string s → Js.split sep s = [s].
Proof.
  induction s as [|c r IH]; simpl; intros Hnot; [done|].
  destruct (Ascii.eqb_spec c sep) as [->|Hne].
  - exfalso. apply Hnot. left.
  - rewrite IH; [done|]. intros Hin. apply Hnot. by right.
Qed.

(** A name [base.ext] whose last part holds no dot splits into some
    leading segments and [ext]. *)
Lemma split_dotted sep base ext :
  sep ∉ list_ascii_of_string ext →
  ∃ seg segs, Js.split sep (base ++ String sep ext) = seg :: segs ++ [ext].
Proof.
  intros Hext. induction base as [|c r (seg & segs & IH)]; simpl.
  - rewrite Ascii.eqb_refl, (split_no_sep _ _ Hext). by exists "", [].
  - rewrite IH. destruct (Ascii.eqb c sep).
    + by exists "", (seg :: segs).
    + by exists (String c seg), segs.
Qed.

Lemma toLowerCase_idempotent s : Js.toLowerCase (Js.toLowerCase s) = Js.toLowerCase s.
Proof.
  induction s as [|c r IH]; simpl; [done|]. f_equal; [|done].
  destruct c as [[] [] [] [] [] [] [] []]; reflexivity.
Qed.

(** The extension the handler tests is the text after the last dot, in
    lower case. *)
Lemma fileExtension_dotted base ext body :
  "."%char ∉ list_ascii_of_string ext →
  fileExtension (mkFile (base ++ String "." ext) body) = Some (Js.toLowerCase ext).
Proof.
  intros Hext. unfold fileExtension, Js.pop. simpl.
  destruct (split_dotted "." base ext Hext) as (seg & segs & ->).
  by rewrite app_comm_cons, last_snoc.
Qed.

(** A name without a dot is its own extension. *)
Lemma fileExtension_undotted nm body :
  "."%char ∉ list_ascii_of_string nm →
  fileExtension (mkFile nm body) = Some (Js.toLowerCase nm).
Proof.
  intros Hnm. unfold fileExtension. simpl. by rewrite (split_no_sep _ _ Hnm).
Qed.

Lemma fileExtension_is_Some f : is_Some (fileExtension f).
Proof.
  unfold fileExtension, Js.pop. pose proof (split_nonempty "." (name f)) as Hne.
  destruct (Js.split "." (name f)) as [|seg segs] using rev_ind; [done|].
  rewrite last_snoc. by eexists.
Qed.

(** ** handleFileChange *)

Lemma extensionIn_test exts f :
  extensionIn exts f ↔
  match fileExtension f with
  | Some ext => Js.includes exts ext = true
  | None => False
  end.
Proof.
  unfold extensionIn, Js.includes. destruct (fileExtension f) as [ext|].
  - rewrite bool_decide_eq_true. split; [by intros (? & [= <-] & ?)|eauto].
  - split; [by intros (? & ? & ?)|done].
Qed.

Lemma extensionIn_dec exts f : extensionIn exts f ∨ ¬ extensionIn exts f.
Proof.
  destruct (extensionIn_test exts f) as [Hto Hfrom].
  destruct (fileExtension f) as [ext|]; [|by right].
  destruct (Js.includes exts ext); [left; by apply Hfrom|right].
  by intros ?%Hto.
Qed.

Lemma allowed_truthy ext : ext ∈ allowedExtensions → Js.truthy_string ext = true.
Proof.
  unfold allowedExtensions. rewrite !elem_of_cons, elem_of_nil.
  by intros [->|[->|[->|[]]]].
Qed.

(** The two branches of the handler, as equations. *)
Lemma handleFileChange_allowed s f rest :
  extensionIn allowedExtensions f →
  handleFileChange (mkChange (f :: rest)) s =
    (Normal (),
     mkState (Some f) (name f) (loading s) (keywords s) "" (documentInfo s)
       (summary s) (evaluation s) (extractedMetadata s) false,
     []).
Proof.
  intros (ext & Hext & Hin). unfold handleFileChange. simpl. rewrite Hext.
  unfold Js.includes. rewrite (allowed_truthy _ Hin), bool_decide_eq_true_2 by done.
  reflexivity.
Qed.

Lemma handleFileChange_refused s f rest :
  ¬ extensionIn allowedExtensions f →
  handleFileChange (mkChange (f :: rest)) s =
    (Normal (),
     mkState None "" (loading s) (keywords s) (error s) (documentInfo s)
       (summary s) (evaluation s) (extractedMetadata s) false,
     [Alert invalidTypeMessage; SetInputValue ""]).
Proof.
  intros Hnot. unfold handleFileChange. simpl.
  destruct (fileExtension f) as [ext|] eqn:Hext; [|reflexivity].
  destruct (Js.truthy_string ext && Js.includes allowedExtensions ext) eqn:Hc;
    [|reflexivity].
  exfalso. apply Hnot. exists ext. split; [done|].
  apply andb_true_iff in Hc as [_ Hc]. by apply bool_decide_eq_true in Hc.
Qed.

Lemma handleFileChange_none s :
  handleFileChange (mkChange []) s =
    (Normal (),
     mkState (file s) (fileName s) (loading s) (keywords s) (error s)
       (documentInfo s) (summary s) (evaluation s) (extractedMetadata s) false,
     []).
Proof. reflexivity. Qed.

(** A change event never throws, issues no request and leaves the loading
    flag and the result fields alone. *)
Lemma handleFileChange_frame e s :
  ∃ s' t, handleFileChange e s = (Normal (), s', t)
          ∧ sameResults s s' ∧ noRequest t.
Proof.
  destruct e as [[|f rest]].
  - rewrite handleFileChange_none. eexists _, _. split; [done|].
    split; [by repeat split|constructor].
  - destruct (extensionIn_dec allowedExtensions f) as [H|H].
    + rewrite (handleFileChange_allowed _ _ _ H). eexists _, _.
      split; [done|]. split; [by repeat split|constructor].
    + rewrite (handleFileChange_refused _ _ _ H). eexists _, _.
      split; [done|]. split; [by repeat split|by repeat constructor].
Qed.

Lemma sameResults_trans s1 s2 s3 :
  sameResults s1 s2 → sameResults s2 s3 → sameResults s1 s3.
Proof. unfold sameResults. intros H1 H2. destruct_and!. repeat split; congruence. Qed.

Lemma fileChanges_frame evs s :
  ∃ s' t, fileChanges evs s = (Normal (), s', t)
          ∧ sameResults s s' ∧ noRequest t.
Proof.
  revert s. induction evs as [|e evs IH]; intros s; simpl.
  - eexists _, _. split; [done|]. split; [by repeat split|constructor].
  - destruct (handleFileChange_frame e s) as (s1 & t1 & He & Hs1 & Ht1).
    destruct (IH s1) as (s2 & t2 & Hevs & Hs2 & Ht2).
    exists s2, (t1 ++ t2). unfold mbind, M_bind. rewrite He, Hevs.
    split; [done|]. split; [by eapply sameResults_trans|].
    by apply Forall_app.
Qed.

(** ** handleSubmit and handleReset *)

Lemma handleSubmit_no_file s :
  file s = None →
  fire handleSubmit s = (Normal None, s, [PreventDefault; Alert noFileMessage]).
Proof. intros H. unfold fire, handleSubmit. rewrite H. reflexivity. Qed.

Lemma handleSubmit_started s f :
  file s = Some f →
  fire handleSubmit s =
    (Normal (Some (handleSubmit_resume s)),
     mkState (Some f) (fileName s) true [] "" None "" None None false,
     [PreventDefault;
      Post uploadUrl [("file", f)] [("Content-Type", "multipart/form-data")]]).
Proof. intros H. unfold fire, handleSubmit. rewrite H. destruct s. simpl in *. by subst. Qed.

(** The [catch] path: the request was rejected, or its body was [null]. *)
Lemma handleSubmit_resume_failed c env r s :
  (∀ d, r ≠ Resolved (Some d)) →
  handleSubmit_resume c env r s =
    (Normal (),
     mkState (file s) (fileName s) false (keywords s) uploadFailedMessage
       (documentInfo s) (summary s) (evaluation s) (extractedMetadata s) false,
     [ConsoleError "Error uploading file:"]).
Proof. intros Hr. destruct r as [reason|[d|]]; [done|by destruct (Hr d)|done]. Qed.

(** The success path. *)
Lemma handleSubmit_resume_succeeded c env d s :
  handleSubmit_resume c env (Resolved (Some d)) s =
    (Normal (),
     mkState (file s) (fileName s) false (default [] (data.keywords d)) (error s)
       (Some {|
          info.filename := or_string (data.filename d) (fileName c);
          info.upload_date := or_string (data.upload_date d) (now env);
          info.keyword_count :=
            match data.keywords d with Some ks => length ks | None => 0%nat end;
          info.id := or_number (data.id d) (randomId env);
          info.status := or_string (data.status d) "PROCESSED" |})
       (or_string (data.summary d) "") (data.evaluation d) (data.rfp_metadata d) true,
     []).
Proof. reflexivity. Qed.

(** A submission with a file selected: the request goes out once, the
    change events of the meantime leave the cleared result fields and the
    loading flag as they are, and the continuation runs on that state. *)
Lemma submission_run evs env r s f :
  file s = Some f →
  ∃ s2 t2,
    loading s2 = true ∧ resultsCleared s2 ∧ noRequest t2 ∧
    submission evs env r s =
      (let '(c, s3, t3) := handleSubmit_resume s env r s2 in
       (c, s3,
        [PreventDefault;
         Post uploadUrl [("file", f)] [("Content-Type", "multipart/form-data")]]
        ++ t2 ++ t3)).
Proof.
  intros Hf. unfold submission, mbind, M_bind.
  rewrite (handleSubmit_started _ _ Hf).
  match goal with |- context [fileChanges evs ?s1] =>
    destruct (fileChanges_frame evs s1) as (s2 & t2 & -> & Hsame & Ht2) end.
  exists s2, t2. destruct Hsame as (Hl & Hk & Hd & Hs & He & Hm). simpl in *.
  split; [done|]. split; [by repeat split|]. split; [done|].
  by destruct (handleSubmit_resume s env r s2) as [[c s3] t3].
Qed.

Lemma submission_no_file evs env r s :
  file s = None →
  submission evs env r s = (Normal (), s, [PreventDefault; Alert noFileMessage]).
Proof.
  intros Hf. unfold submission, mbind, M_bind.
  by rewrite (handleSubmit_no_file _ Hf).
Qed.

Lemma handleReset_initial s : handleReset s = (Normal (), initialState, []).
Proof. reflexivity. Qed.

(** ** The claims about the handlers *)

(** C1 (as amended).  [handleFileChange] takes the first selected file,
    storing it and its name and clearing the error, exactly when its
    extension, compared case-insensitively, is one of pdf, docx, txt.  For
    every other file it shows the blocking alert, empties the file input and
    clears the selection, and a submission from the resulting state issues
    no request. *)
Theorem handleFileChange_validates (s : State) (f : File) (rest : list File) :
  let r := handleFileChange (mkChange (f :: rest)) s in
  (accepted f r ↔ extensionIn allowedExtensions f) ∧
  (¬ extensionIn allowedExtensions f →
   rejected r ∧
   ∀ evs env resp, noRequest (traceOf (submission evs env resp (stateOf r)))).
Proof.
  simpl. split.
  - split.
    + intros (Hfile & _). destruct (extensionIn_dec allowedExtensions f) as [H|H]; [done|].
      by rewrite (handleFileChange_refused _ _ _ H) in Hfile.
    + intros H. by rewrite (handleFileChange_allowed _ _ _ H).
  - intros H. rewrite (handleFileChange_refused _ _ _ H). split; [done|].
    intros evs env resp. rewrite submission_no_file by done.
    by repeat constructor.
Qed.

Lemma handleFileChange_validates_witness :
  accepted rfpPdf (handleFileChange (mkChange [rfpPdf]) initialState)
  ∧ rejected (handleFileChange (mkChange [setupExe]) chosenState).
Proof.
  split.
  - apply (handleFileChange_validates initialState rfpPdf []).
    exists "pdf". split; [reflexivity|]. unfold allowedExtensions.
    rewrite !elem_of_cons. tauto.
  - apply (handleFileChange_validates chosenState setupExe []).
    intros (ext & Hext & Hin). injection Hext as <-.
    unfold allowedExtensions in Hin. rewrite !elem_of_cons, elem_of_nil in Hin.
    by destruct Hin as [?|[?|[?|[]]]].
Defined.

(** C1, the claim as written fails: a [.doc] file has an extension of the
    specification's set, and the handler refuses it. *)
Lemma doc_file_not_accepted :
  let r := handleFileChange (mkChange [proposalDoc]) initialState in
  extensionIn spec_extensions proposalDoc ∧ ¬ accepted proposalDoc r ∧ rejected r.
Proof.
  simpl. split; [|split].
  - exists "doc". split; [reflexivity|]. unfold spec_extensions.
    rewrite !elem_of_cons. tauto.
  - by intros (Hfile & _).
  - done.
Qed.

(** C2.  At the start of a submission and on reset, the result fields, the
    error message and the success flag are back at their initial values. *)
Theorem submit_and_reset_clear (s s' : State) (f : File) (Hf : file s = Some f) :
  let started := stateOf (fire handleSubmit s) in
  let cleared := stateOf (handleReset s') in
  (resultsCleared started ∧ error started = "" ∧ isSuccess started = false
   ∧ keywords started = keywords initialState
   ∧ documentInfo started = documentInfo initialState
   ∧ summary started = summary initialState
   ∧ evaluation started = evaluation initialState
   ∧ extractedMetadata started = extractedMetadata initialState
   ∧ error started = error initialState
   ∧ isSuccess started = isSuccess initialState)
  ∧ (resultsCleared cleared ∧ error cleared = "" ∧ isSuccess cleared = false
     ∧ cleared = initialState).
Proof.
  intros started cleared. subst started cleared.
  rewrite (handleSubmit_started _ _ Hf), handleReset_initial.
  by repeat split.
Qed.

Lemma submit_and_reset_clear_witness :
  file uploadedState = Some rfpPdf
  ∧ resultsCleared (stateOf (fire handleSubmit uploadedState))
  ∧ stateOf (handleReset uploadedState) = initialState.
Proof.
  split; [reflexivity|].
  pose proof (submit_and_reset_clear uploadedState uploadedState rfpPdf eq_refl) as H.
  simpl in H. split; [apply H|apply H].
Defined.

Lemma resultsCleared_hasResults s : resultsCleared s → hasResults s = false.
Proof.
  intros (Hk & _ & Hs & He & Hm). unfold hasResults.
  rewrite Hk, Hs, He, Hm. reflexivity.
Qed.

(** C3.  When the POST request fails, the handler sets the one fixed error
    message, clears the success flag and leaves every result field empty, so
    no result section is rendered.  This holds whatever file-input changes
    arrive while the request is in flight. *)
Theorem failed_upload_shows_only_error
    (s : State) (f : File) (evs : list ChangeEvent) (env : Env) (reason : string)
    (Hf : file s = Some f) :
  let r := submission evs env (Rejected reason) s in
  r.1.1 = Normal ()
  ∧ error (stateOf r) = uploadFailedMessage
  ∧ isSuccess (stateOf r) = false
  ∧ resultsCleared (stateOf r)
  ∧ hasResults (stateOf r) = false
  ∧ documentInfoShown (stateOf r) = false.
Proof.
  intros r. subst r.
  destruct (submission_run evs env (Rejected reason) s f Hf)
    as (s2 & t2 & _ & Hclear & _ & ->).
  rewrite handleSubmit_resume_failed by done.
  assert (resultsCleared
    (mkState (file s2) (fileName s2) false (keywords s2) uploadFailedMessage
       (documentInfo s2) (summary s2) (evaluation s2) (extractedMetadata s2) false))
    as Hc by exact Hclear.
  unfold documentInfoShown, stateOf. cbn [fst snd].
  rewrite (resultsCleared_hasResults _ Hc). done.
Qed.

Lemma failed_upload_shows_only_error_witness :
  file chosenState = Some rfpPdf
  ∧ error (stateOf (submission [mkChange [setupExe]] sampleEnv
                      (Rejected "Network Error") chosenState))
    = uploadFailedMessage.
Proof.
  split; [reflexivity|].
  apply (failed_upload_shows_only_error chosenState rfpPdf [mkChange [setupExe]]
           sampleEnv "Network Error" eq_refl).
Defined.

(** C4.  On a successful response, document info is populated, with the
    client-side default for each absent field: the file name of the
    submitting render, the current timestamp, a random id, 'PROCESSED', and
    a keyword count of 0. *)
Theorem absent_fields_get_defaults
    (s : State) (f : File) (evs : list ChangeEvent) (env : Env) (d : data.t)
    (Hf : file s = Some f) :
  ∃ di,
    documentInfo (stateOf (submission evs env (Resolved (Some d)) s)) = Some di
    ∧ (data.filename d = None → info.filename di = fileName s)
    ∧ (data.upload_date d = None → info.upload_date di = now env)
    ∧ (data.id d = None →
       info.id di = Js.floor (Js.mul (random env) (Js.ofZ 1000)))
    ∧ (data.status d = None → info.status di = "PROCESSED")
    ∧ (data.keywords d = None ∨ data.keywords d = Some [] →
       info.keyword_count di = 0%nat).
Proof.
  destruct (submission_run evs env (Resolved (Some d)) s f Hf)
    as (s2 & t2 & _ & _ & _ & ->).
  rewrite handleSubmit_resume_succeeded. eexists. split; [reflexivity|].
  cbn [info.filename info.upload_date info.id info.status info.keyword_count].
  repeat split.
  - by intros ->.
  - by intros ->.
  - by intros ->.
  - by intros ->.
  - by intros [-> | ->].
Qed.

Lemma absent_fields_get_defaults_witness :
  file chosenState = Some rfpPdf
  ∧ ∃ di,
      documentInfo (stateOf (submission [] sampleEnv (Resolved (Some sparseData))
                               chosenState)) = Some di
      ∧ info.filename di = "rfp-2024.PDF"
      ∧ info.upload_date di = "2024-05-01T10:00:00.000Z"
      ∧ info.id di = Js.Fin 437
      ∧ info.status di = "PROCESSED".
Proof.
  split; [reflexivity|].
  destruct (absent_fields_get_defaults chosenState rfpPdf [] sampleEnv sparseData
              eq_refl) as (di & Hdi & Hn & Hu & Hi & Hs & _).
  exists di. split; [exact Hdi|].
  split; [exact (Hn eq_refl)|]. split; [exact (Hu eq_refl)|].
  split; [exact (Hi eq_refl)|exact (Hs eq_refl)].
Defined.

(** C5.  Whether the request succeeds or fails, the handler completes and
    the loading flag is false afterwards: the reset button is enabled again,
    and the submit button is as soon as a file is selected. *)
Theorem loading_cleared_after_attempt
    (s : State) (f : File) (evs : list ChangeEvent) (env : Env) (resp : Response)
    (Hf : file s = Some f) :
  let r := submission evs env resp s in
  r.1.1 = Normal ()
  ∧ loading (stateOf r) = false
  ∧ resetDisabled (stateOf r) = false
  ∧ submitDisabled (stateOf r) = negb (bool_decide (is_Some (file (stateOf r)))).
Proof.
  intros r. subst r.
  destruct (submission_run evs env resp s f Hf) as (s2 & t2 & _ & _ & _ & ->).
  destruct resp as [reason|[d|]].
  - rewrite handleSubmit_resume_failed by done. unfold submitDisabled, stateOf. cbn.
    by rewrite orb_false_r.
  - rewrite handleSubmit_resume_succeeded. unfold submitDisabled, stateOf. cbn.
    by rewrite orb_false_r.
  - rewrite handleSubmit_resume_failed by done. unfold submitDisabled, stateOf. cbn.
    by rewrite orb_false_r.
Qed.

Lemma loading_cleared_after_attempt_witness :
  file chosenState = Some rfpPdf
  ∧ loading (stateOf (submission [] sampleEnv (Resolved None) chosenState)) = false.
Proof.
  split; [reflexivity|].
  apply (loading_cleared_after_attempt chosenState rfpPdf [] sampleEnv
           (Resolved None) eq_refl).
Defined.

(** C6.  With no file selected, [handleSubmit] shows the alert and returns:
    no request is issued and the state is unchanged. *)
Theorem submit_without_file_is_noop (s : State) (Hf : file s = None) :
  fire handleSubmit s = (Normal None, s, [PreventDefault; Alert noFileMessage])
  ∧ noRequest (traceOf (fire handleSubmit s))
  ∧ ∀ evs env resp,
      stateOf (submission evs env resp s) = s
      ∧ noRequest (traceOf (submission evs env resp s)).
Proof.
  rewrite (handleSubmit_no_file _ Hf). split; [done|].
  split; [by repeat constructor|].
  intros evs env resp. rewrite (submission_no_file _ _ _ _ Hf).
  split; [done|by repeat constructor].
Qed.

Lemma submit_without_file_is_noop_witness :
  file initialState = None
  ∧ fire handleSubmit initialState
    = (Normal None, initialState, [PreventDefault; Alert noFileMessage]).
Proof.
  split; [reflexivity|].
  apply (submit_without_file_is_noop initialState eq_refl).
Defined.

(** C7 (as amended).  When [handleFileChange] refuses a file, the alert is
    shown, no request is issued, the selection is cleared (file, file name,
    file input value) and the success flag is reset to false; the loading
    flag, the error message and every result field keep their values. *)
Theorem refused_file_frame (s : State) (f : File) (rest : list File)
    (Hbad : ¬ extensionIn allowedExtensions f) :
  let r := handleFileChange (mkChange (f :: rest)) s in
  traceOf r = [Alert invalidTypeMessage; SetInputValue ""]
  ∧ noRequest (traceOf r)
  ∧ file (stateOf r) = None ∧ fileName (stateOf r) = ""
  ∧ isSuccess (stateOf r) = false
  ∧ sameResults s (stateOf r)
  ∧ error (stateOf r) = error s.
Proof.
  intros r. subst r. rewrite (handleFileChange_refused _ _ _ Hbad).
  split; [done|]. split; [by repeat constructor|]. by repeat split.
Qed.

Lemma exe_extension_not_allowed : ¬ extensionIn allowedExtensions setupExe.
Proof.
  intros (ext & Hext & Hin). injection Hext as <-.
  unfold allowedExtensions in Hin. rewrite !elem_of_cons, elem_of_nil in Hin.
  by destruct Hin as [?|[?|[?|[]]]].
Qed.

Lemma refused_file_frame_witness :
  ¬ extensionIn allowedExtensions setupExe
  ∧ sameResults uploadedState
      (stateOf (handleFileChange (mkChange [setupExe]) uploadedState)).
Proof.
  split; [exact exe_extension_not_allowed|].
  apply (refused_file_frame uploadedState setupExe [] exe_extension_not_allowed).
Defined.

(** C7, the claim as written fails: after a successful upload the success
    flag is set, and refusing a file resets it, so not every field outside the
    selection keeps its value. *)
Lemma refused_file_resets_success :
  let r := handleFileChange (mkChange [setupExe]) uploadedState in
  rejected r
  ∧ isSuccess uploadedState = true
  ∧ isSuccess (stateOf r) = false
  ∧ ¬ othersRetained uploadedState (stateOf r).
Proof.
  intros r. subst r. rewrite (handleFileChange_refused _ _ _ exe_extension_not_allowed).
  split; [done|]. split; [reflexivity|]. split; [reflexivity|].
  by intros (_ & _ & Hs).
Qed.

(** C10.  After a successful submission the keyword count stored in
    document info is the length of the stored keyword list (0 and the empty
    list when the response has no keywords). *)
Theorem keyword_count_matches_list
    (s : State) (f : File) (evs : list ChangeEvent) (env : Env) (d : data.t)
    (Hf : file s = Some f) :
  let s' := stateOf (submission evs env (Resolved (Some d)) s) in
  ∃ di,
    documentInfo s' = Some di
    ∧ info.keyword_count di = length (keywords s')
    ∧ keywords s' = default [] (data.keywords d)
    ∧ (data.keywords d = None → info.keyword_count di = 0%nat ∧ keywords s' = []).
Proof.
  intros s'. subst s'.
  destruct (submission_run evs env (Resolved (Some d)) s f Hf)
    as (s2 & t2 & _ & _ & _ & ->).
  rewrite handleSubmit_resume_succeeded. eexists. split; [reflexivity|].
  unfold stateOf. cbn [fst snd keywords info.keyword_count].
  split; [by destruct (data.keywords d)|]. split; [done|]. by intros ->.
Qed.

Lemma keyword_count_matches_list_witness :
  file chosenState = Some rfpPdf
  ∧ ∃ di,
      documentInfo uploadedState = Some di
      ∧ info.keyword_count di = 2%nat
      ∧ length (keywords uploadedState) = 2%nat.
Proof.
  split; [reflexivity|].
  destruct (keyword_count_matches_list chosenState rfpPdf [] sampleEnv sparseData
              eq_refl) as (di & Hdi & Hcount & _).
  exists di. split; [exact Hdi|]. split; [|reflexivity].
  rewrite Hcount. reflexivity.
Defined.

(** ** renderDecisionBadge *)

Lemma renderDecisionBadge_ACCEPT : renderDecisionBadge (Js.str "ACCEPT") = acceptBadge.
Proof. reflexivity. Qed.

Lemma renderDecisionBadge_REJECT : renderDecisionBadge (Js.str "REJECT") = rejectBadge.
Proof. reflexivity. Qed.

Lemma renderDecisionBadge_REVIEW : renderDecisionBadge (Js.str "REVIEW") = reviewBadge.
Proof. reflexivity. Qed.

Lemma renderDecisionBadge_PENDING : renderDecisionBadge (Js.str "PENDING") = reviewBadge.
Proof. reflexivity. Qed.

Lemma renderDecisionBadge_absent : renderDecisionBadge Js.undefined = reviewBadge.
Proof. reflexivity. Qed.

Lemma get_other {V} (a b c : V) (key : Js.value) :
  Js.toPropertyKey key ≠ "ACCEPT" → Js.toPropertyKey key ≠ "REJECT" →
  Js.toPropertyKey key ≠ "REVIEW" →
  Js.get (<["ACCEPT" := a]> (<["REJECT" := b]> (<["REVIEW" := c]> ∅))) key =
    if bool_decide (Js.toPropertyKey key ∈ Js.Object_prototype)
    then Js.Inherited (Js.toPropertyKey key) else Js.Absent.
Proof.
  intros Ha Hb Hc. unfold Js.get.
  by rewrite !lookup_insert_ne, lookup_empty by done.
Qed.

(** The fallback works for every key that is neither one of the three
    decisions nor a property name of [Object.prototype]. *)
Lemma renderDecisionBadge_fallback decision :
  Js.toPropertyKey decision ∉ ["ACCEPT"; "REJECT"] ++ Js.Object_prototype →
  renderDecisionBadge decision = reviewBadge.
Proof.
  intros Hnot. rewrite elem_of_app, !elem_of_cons, elem_of_nil in Hnot.
  destruct (decide (Js.toPropertyKey decision = "REVIEW")) as [Hr|Hr].
  - destruct decision as [| |[]|k]; simpl in Hr; try discriminate. by subst.
  - unfold renderDecisionBadge, decisionText, styleMap.
    rewrite !(get_other _ _ _ decision) by tauto.
    rewrite bool_decide_eq_false_2 by tauto. reflexivity.
Qed.

(** An inherited property is found instead of the fallback: the badge
    gets neither a style object nor a label. *)
Lemma renderDecisionBadge_inherited k :
  k ∈ Js.Object_prototype →
  renderDecisionBadge (Js.str k) =
    mkBadge "decisionBadge" (Js.Inherited k) (Js.Inherited k).
Proof.
  unfold Js.Object_prototype. rewrite !elem_of_cons, elem_of_nil. intros Hk.
  repeat (destruct Hk as [->|Hk]; [reflexivity|]). done.
Qed.

(** C8, at the failing input.  For the decision ['constructor'] both
    lookups find [Object.prototype.constructor], which is truthy, so the
    [||] fallback is skipped: the badge carries a function as its style and
    as its child, and is not the REVIEW presentation. *)
Theorem renderDecisionBadge_constructor :
  renderDecisionBadge (Js.str "constructor") =
    mkBadge "decisionBadge" (Js.Inherited "constructor") (Js.Inherited "constructor")
  ∧ renderDecisionBadge (Js.str "constructor") ≠ reviewBadge
  ∧ "constructor" ∉ ["ACCEPT"; "REJECT"; "REVIEW"].
Proof.
  split; [reflexivity|]. split; [discriminate|].
  rewrite !elem_of_cons, elem_of_nil. by intros [?|[?|[?|[]]]].
Qed.

(** ** formatINR *)










Lemma formatINR_positive q :
  (0 < q)%Q →
  formatINR (Some (Js.Fin q)) = "₹" +:+ Intl.group (Intl.digits (Intl.round q)).
Proof.
  intros Hq. unfold formatINR, Js.truthy_number, Js.le_zero, Intl.format.
  assert (Qeq_bool q 0 = false) as ->.
  { apply not_true_is_false. intros H%Qeq_bool_iff. rewrite H in Hq.
    by apply Qlt_irrefl in Hq. }
  assert (Qle_bool q 0 = false) as ->.
  { apply not_true_is_false. intros H%Qle_bool_iff. by apply Qlt_not_le in Hq. }
  assert (Qle_bool 0 q = true) as ->.
  { apply Qle_bool_iff. by apply Qlt_le_weak. }
  reflexivity.
Qed.


(** * Further properties of the component *)

(** ** What change events leave alone *)

Lemma handleFileChange_flags e s :
  isSuccess (stateOf (handleFileChange e s)) = false
  ∧ (error (stateOf (handleFileChange e s)) = error s
     ∨ error (stateOf (handleFileChange e s)) = "").
Proof.
  destruct e as [[|f rest]].
  - rewrite handleFileChange_none. split; [done|by left].
  - destruct (extensionIn_dec allowedExtensions f) as [H|H].
    + rewrite (handleFileChange_allowed _ _ _ H). split; [done|by right].
    + rewrite (handleFileChange_refused _ _ _ H). split; [done|by left].
Qed.

Lemma fileChanges_flags evs s :
  isSuccess s = false → error s = "" →
  isSuccess (stateOf (fileChanges evs s)) = false
  ∧ error (stateOf (fileChanges evs s)) = "".
Proof.
  revert s. induction evs as [|e evs IH]; intros s Hs He; [done|].
  simpl. unfold mbind, M_bind.
  destruct (handleFileChange_frame e s) as (s1 & t1 & Hrun & _ & _).
  destruct (handleFileChange_flags e s) as [Hs1 He1].
  rewrite Hrun in Hs1, He1 |- *. unfold stateOf in Hs1, He1. simpl in Hs1, He1.
  assert (error s1 = "") as He1' by (destruct He1; congruence).
  specialize (IH s1 Hs1 He1').
  by destruct (fileChanges evs s1) as [[c s2] t2].
Qed.

Lemma noRequest_filter t : noRequest t → filter (λ e, isPost e = true) t = [].
Proof.
  induction 1 as [|e t He _ IH]; [done|].
  rewrite filter_cons_False; [done|]. by rewrite He.
Qed.

(** The state while the request is pending. *)
Lemma pending_run evs s f :
  file s = Some f →
  ∃ s2 t2,
    fileChanges evs (mkState (Some f) (fileName s) true [] "" None "" None None false)
      = (Normal (), s2, t2)
    ∧ pending evs s = (Normal (), s2, [PreventDefault; uploadRequest f] ++ t2)
    ∧ loading s2 = true ∧ resultsCleared s2 ∧ error s2 = "" ∧ isSuccess s2 = false
    ∧ noRequest t2
    ∧ ∀ env r,
        submission evs env r s =
          (let '(c, s3, t3) := handleSubmit_resume s env r s2 in
           (c, s3, [PreventDefault; uploadRequest f] ++ t2 ++ t3)).
Proof.
  intros Hf.
  pose (s1 := mkState (Some f) (fileName s) true [] "" None "" None None false).
  destruct (fileChanges_frame evs s1) as (s2 & t2 & Hrun & Hsame & Ht2).
  destruct (fileChanges_flags evs s1 eq_refl eq_refl) as [Hs2 He2].
  fold s1. rewrite Hrun in Hs2, He2 |- *. unfold stateOf in Hs2, He2. simpl in Hs2, He2.
  exists s2, t2. destruct Hsame as (Hl & Hk & Hd & Hsm & Hev & Hm). simpl in *.
  split; [done|]. split.
  { unfold pending, mbind, M_bind. rewrite (handleSubmit_started _ _ Hf).
    fold s1. by rewrite Hrun. }
  split; [done|]. split; [by repeat split|]. split; [done|]. split; [done|].
  split; [done|]. intros env r.
  unfold submission, mbind, M_bind. rewrite (handleSubmit_started _ _ Hf).
  fold s1. rewrite Hrun.
  by destruct (handleSubmit_resume s env r s2) as [[c s3] t3].
Qed.

(** ** One request at a time *)

(** While the request is pending, whatever is chosen in the file input
    meanwhile, the loading flag is set: the submit and the reset button are
    disabled, so no second request can be started and the state cannot be
    reset under the running one.  Nothing of an earlier result is on screen. *)
Theorem controls_disabled_while_pending
    (s : State) (f : File) (evs : list ChangeEvent) (Hf : file s = Some f) :
  let p := stateOf (pending evs s) in
  loading p = true
  ∧ submitDisabled p = true
  ∧ resetDisabled p = true
  ∧ hasResults p = false
  ∧ errorShown p = false
  ∧ emptyStateShown p = false.
Proof.
  intros p. subst p.
  destruct (pending_run evs s f Hf)
    as (s2 & t2 & _ & -> & Hl & Hclear & He & _ & _ & _).
  unfold stateOf, submitDisabled, resetDisabled, errorShown, emptyStateShown.
  cbn [fst snd]. rewrite (resultsCleared_hasResults _ Hclear), Hl, He.
  by rewrite orb_true_r.
Qed.

Lemma controls_disabled_while_pending_witness :
  file chosenState = Some rfpPdf
  ∧ submitDisabled (stateOf (pending [mkChange [notesTxt]] chosenState)) = true.
Proof.
  split; [reflexivity|].
  apply (controls_disabled_while_pending chosenState rfpPdf [mkChange [notesTxt]]
           eq_refl).
Defined.

(** A submission sends exactly one request: the POST to the fixed URL with
    the file that was selected when the form was submitted, under the key
    [file].  A file chosen while the request is pending is not sent. *)
Theorem exactly_one_request
    (s : State) (f : File) (evs : list ChangeEvent) (env : Env) (r : Response)
    (Hf : file s = Some f) :
  filter (λ e, isPost e = true) (traceOf (submission evs env r s))
  = [Post "http://localhost:8000/api/documents/upload/" [("file", f)]
       [("Content-Type", "multipart/form-data")]].
Proof.
  destruct (pending_run evs s f Hf) as (s2 & t2 & _ & _ & _ & _ & _ & _ & Ht2 & ->).
  assert (∃ c s3 t3, handleSubmit_resume s env r s2 = (c, s3, t3) ∧ noRequest t3)
    as (c & s3 & t3 & -> & Ht3).
  { destruct r as [reason|[d|]].
    - rewrite handleSubmit_resume_failed by done. eexists _, _, _.
      split; [done|by repeat constructor].
    - rewrite handleSubmit_resume_succeeded. eexists _, _, _.
      split; [done|constructor].
    - rewrite handleSubmit_resume_failed by done. eexists _, _, _.
      split; [done|by repeat constructor]. }
  unfold traceOf. cbn [snd]. rewrite !filter_app.
  rewrite (noRequest_filter _ Ht2), (noRequest_filter _ Ht3).
  rewrite filter_cons_False by (by intros ?).
  rewrite filter_cons_True by done. reflexivity.
Qed.

Lemma exactly_one_request_witness :
  file chosenState = Some rfpPdf
  ∧ filter (λ e, isPost e = true)
      (traceOf (submission [mkChange [notesTxt]; mkChange [setupExe]] sampleEnv
                  (Resolved (Some sparseData)) chosenState))
    = [uploadRequest rfpPdf].
Proof.
  split; [reflexivity|].
  apply (exactly_one_request chosenState rfpPdf
           [mkChange [notesTxt]; mkChange [setupExe]] sampleEnv
           (Resolved (Some sparseData)) eq_refl).
Defined.

(** Without a change event in between, the whole trace of a submission is
    the POST, and one console message exactly when the response did not
    succeed; a submission with a file never opens an alert. *)
Theorem submission_trace
    (s : State) (f : File) (env : Env) (r : Response) (Hf : file s = Some f) :
  traceOf (submission [] env r s)
  = [PreventDefault; uploadRequest f]
    ++ (if succeeded r then [] else [ConsoleError "Error uploading file:"]).
Proof.
  destruct (pending_run [] s f Hf) as (s2 & t2 & Hrun & _ & _ & _ & _ & _ & _ & ->).
  injection Hrun as <- <-.
  destruct r as [reason|[d|]]; reflexivity.
Qed.

Lemma submission_trace_witness :
  file chosenState = Some rfpPdf
  ∧ traceOf (submission [] sampleEnv (Rejected "timeout") chosenState)
    = [PreventDefault; uploadRequest rfpPdf; ConsoleError "Error uploading file:"].
Proof.
  split; [reflexivity|].
  apply (submission_trace chosenState rfpPdf sampleEnv (Rejected "timeout") eq_refl).
Defined.

(** ** After the request has settled *)

(** The selection survives a submission: whatever the outcome, the file
    and its name are still selected afterwards, the submit button is enabled
    again (a failed upload can be retried at once) and the reset button is
    offered. *)
Theorem selection_survives_submission
    (s : State) (f : File) (env : Env) (r : Response) (Hf : file s = Some f) :
  let s' := stateOf (submission [] env r s) in
  file s' = Some f
  ∧ fileName s' = fileName s
  ∧ submitDisabled s' = false
  ∧ resetShown s' = true
  ∧ resetDisabled s' = false.
Proof.
  intros s'. subst s'.
  destruct (pending_run [] s f Hf) as (s2 & t2 & Hrun & _ & _ & _ & _ & _ & _ & ->).
  injection Hrun as <- <-.
  destruct r as [reason|[d|]]; by repeat split.
Qed.

Lemma selection_survives_submission_witness :
  file chosenState = Some rfpPdf
  ∧ submitDisabled (stateOf (submission [] sampleEnv (Rejected "503") chosenState))
    = false.
Proof.
  split; [reflexivity|].
  apply (selection_survives_submission chosenState rfpPdf sampleEnv
           (Rejected "503") eq_refl).
Defined.

(** The two outcomes exclude each other.  After a response with a body the
    success flag is set, document info is stored and no error is shown; after
    any other response the error is shown, the success flag is clear, no
    result is on screen and the empty state is not shown either. *)
Theorem outcome_is_success_or_error
    (s : State) (f : File) (evs : list ChangeEvent) (env : Env) (r : Response)
    (Hf : file s = Some f) :
  let s' := stateOf (submission evs env r s) in
  if succeeded r
  then isSuccess s' = true ∧ error s' = "" ∧ errorShown s' = false
       ∧ is_Some (documentInfo s')
  else isSuccess s' = false ∧ error s' = uploadFailedMessage ∧ errorShown s' = true
       ∧ hasResults s' = false ∧ emptyStateShown s' = false.
Proof.
  intros s'. subst s'.
  destruct (pending_run evs s f Hf)
    as (s2 & t2 & _ & _ & _ & Hclear & He & _ & _ & ->).
  destruct r as [reason|[d|]]; cbn [succeeded].
  - rewrite handleSubmit_resume_failed by done.
    unfold stateOf, errorShown, emptyStateShown. cbn [fst snd error isSuccess loading].
    assert (resultsCleared
      (mkState (file s2) (fileName s2) false (keywords s2) uploadFailedMessage
         (documentInfo s2) (summary s2) (evaluation s2) (extractedMetadata s2) false))
      as Hc by exact Hclear.
    rewrite (resultsCleared_hasResults _ Hc). by repeat split.
  - rewrite handleSubmit_resume_succeeded.
    unfold stateOf, errorShown. cbn [fst snd error isSuccess documentInfo].
    rewrite He. by repeat split.
  - rewrite handleSubmit_resume_failed by done.
    unfold stateOf, errorShown, emptyStateShown. cbn [fst snd error isSuccess loading].
    assert (resultsCleared
      (mkState (file s2) (fileName s2) false (keywords s2) uploadFailedMessage
         (documentInfo s2) (summary s2) (evaluation s2) (extractedMetadata s2) false))
      as Hc by exact Hclear.
    rewrite (resultsCleared_hasResults _ Hc). by repeat split.
Qed.

Lemma outcome_is_success_or_error_witness :
  file chosenState = Some rfpPdf
  ∧ isSuccess uploadedState = true ∧ error uploadedState = "".
Proof.
  split; [reflexivity|].
  pose proof (outcome_is_success_or_error chosenState rfpPdf [] sampleEnv
                (Resolved (Some sparseData)) eq_refl) as H.
  cbn [succeeded] in H. split; apply H.
Defined.

(** From any state, reset gives the render of a fresh mount: the empty
    state is shown, no error and no result is, the reset button itself
    disappears and the submit button is disabled until a file is chosen. *)
Theorem reset_shows_empty_state (s : State) :
  let s' := stateOf (handleReset s) in
  emptyStateShown s' = true
  ∧ errorShown s' = false
  ∧ hasResults s' = false
  ∧ documentInfoShown s' = false
  ∧ resetShown s' = false
  ∧ submitDisabled s' = true
  ∧ traceOf (handleReset s) = [].
Proof. intros s'. subst s'. rewrite handleReset_initial. by repeat split. Qed.

(** Choosing a file, valid or not, never changes what results are on
    screen: the results of the last upload stay until the next submission or
    a reset; only the success flag of the fade-in is cleared. *)
Theorem results_survive_file_change (s : State) (e : ChangeEvent) :
  let s' := stateOf (handleFileChange e s) in
  hasResults s' = hasResults s
  ∧ documentInfoShown s' = documentInfoShown s
  ∧ keywords s' = keywords s
  ∧ documentInfo s' = documentInfo s
  ∧ loading s' = loading s
  ∧ isSuccess s' = false.
Proof.
  intros s'. subst s'.
  destruct (handleFileChange_frame e s) as (s1 & t1 & Hrun & Hsame & _).
  destruct (handleFileChange_flags e s) as [Hs _].
  rewrite Hrun in Hs |- *. unfold stateOf in *. cbn [fst snd] in *.
  destruct Hsame as (Hl & Hk & Hd & Hsm & Hev & Hm).
  unfold documentInfoShown, hasResults. rewrite Hk, Hd, Hsm, Hev, Hm.
  by repeat split.
Qed.

(** ** The selection cells *)

Lemma handleFileChange_inSync e s :
  inSync s → inSync (stateOf (handleFileChange e s)).
Proof.
  intros Hs. destruct e as [[|f rest]].
  - by rewrite handleFileChange_none.
  - destruct (extensionIn_dec allowedExtensions f) as [H|H].
    + by rewrite (handleFileChange_allowed _ _ _ H).
    + by rewrite (handleFileChange_refused _ _ _ H).
Qed.

Lemma fileChanges_inSync evs s :
  inSync s → inSync (stateOf (fileChanges evs s)).
Proof.
  revert s. induction evs as [|e evs IH]; intros s Hs; [done|].
  simpl. unfold mbind, M_bind.
  destruct (handleFileChange_frame e s) as (s1 & t1 & Hrun & _ & _).
  pose proof (handleFileChange_inSync e s Hs) as Hs1.
  rewrite Hrun in Hs1 |- *. unfold stateOf in Hs1. cbn [fst snd] in Hs1.
  specialize (IH s1 Hs1).
  by destruct (fileChanges evs s1) as [[c s2] t2].
Qed.

Lemma handleSubmit_resume_selection c env r s :
  file (stateOf (handleSubmit_resume c env r s)) = file s
  ∧ fileName (stateOf (handleSubmit_resume c env r s)) = fileName s.
Proof. by destruct r as [reason|[d|]]. Qed.

(** Every handler keeps the two selection cells in step: when they agree
    before a change event, a reset or a whole submission (with any change
    events while it is pending), they agree afterwards. *)
Theorem selection_cells_in_sync
    (s : State) (e : ChangeEvent) (evs : list ChangeEvent) (env : Env)
    (r : Response) (Hs : inSync s) :
  inSync (stateOf (handleFileChange e s))
  ∧ inSync (stateOf (submission evs env r s))
  ∧ inSync (stateOf (handleReset s)).
Proof.
  split; [by apply handleFileChange_inSync|]. split; [|done].
  destruct (file s) as [f|] eqn:Hf.
  - destruct (pending_run evs s f Hf)
      as (s2 & t2 & Hrun & _ & _ & _ & _ & _ & _ & ->).
    assert (inSync s2) as Hs2.
    { pose proof (fileChanges_inSync evs
        (mkState (Some f) (fileName s) true [] "" None "" None None false)) as H.
      rewrite Hrun in H. apply H. unfold inSync in Hs |- *. by rewrite Hf in Hs. }
    destruct (handleSubmit_resume_selection s env r s2) as [H1 H2].
    destruct (handleSubmit_resume s env r s2) as [[c s3] t3].
    unfold stateOf in *. cbn [fst snd] in *. unfold inSync in *.
    by rewrite H1, H2.
  - by rewrite (submission_no_file _ _ _ _ Hf).
Qed.

Lemma selection_cells_in_sync_witness :
  inSync chosenState
  ∧ inSync (stateOf (submission [mkChange [setupExe]] sampleEnv
                       (Resolved (Some sparseData)) chosenState)).
Proof.
  split; [reflexivity|].
  apply (selection_cells_in_sync chosenState (mkChange []) [mkChange [setupExe]]
           sampleEnv (Resolved (Some sparseData)) eq_refl).
Defined.

(** When the response names no file, document info shows the name of the
    file that was sent, also when another file was chosen while the request
    was pending (the selection then shows the newer file). *)
Theorem fallback_filename_is_posted_file
    (s : State) (f : File) (evs : list ChangeEvent) (env : Env) (d : data.t)
    (Hs : inSync s) (Hf : file s = Some f) (Hd : data.filename d = None) :
  ∃ di,
    documentInfo (stateOf (submission evs env (Resolved (Some d)) s)) = Some di
    ∧ info.filename di = name f.
Proof.
  destruct (pending_run evs s f Hf) as (s2 & t2 & _ & _ & _ & _ & _ & _ & _ & ->).
  rewrite handleSubmit_resume_succeeded. eexists. split; [reflexivity|].
  cbn [info.filename]. rewrite Hd. unfold inSync in Hs. by rewrite Hf in Hs.
Qed.

Lemma fallback_filename_is_posted_file_witness :
  inSync chosenState ∧ file chosenState = Some rfpPdf
  ∧ data.filename sparseData = None
  ∧ ∃ di,
      documentInfo (stateOf (submission [mkChange [notesTxt]] sampleEnv
                               (Resolved (Some sparseData)) chosenState)) = Some di
      ∧ info.filename di = "rfp-2024.PDF"
      ∧ fileName (stateOf (submission [mkChange [notesTxt]] sampleEnv
                             (Resolved (Some sparseData)) chosenState)) = "notes.txt".
Proof.
  split; [reflexivity|]. split; [reflexivity|]. split; [reflexivity|].
  destruct (fallback_filename_is_posted_file chosenState rfpPdf
              [mkChange [notesTxt]] sampleEnv sparseData eq_refl eq_refl eq_refl)
    as (di & Hdi & Hname).
  exists di. split; [exact Hdi|]. split; [exact Hname|reflexivity].
Defined.

(** ** Mapping the response into the state *)

(** Fields the response carries with a truthy value are stored as they
    are: no default replaces them, and the keyword list, the evaluation and
    the metadata are taken over unchanged. *)
Theorem present_fields_are_kept
    (s : State) (f : File) (evs : list ChangeEvent) (env : Env) (d : data.t)
    (Hf : file s = Some f) :
  let s' := stateOf (submission evs env (Resolved (Some d)) s) in
  ∃ di,
    documentInfo s' = Some di
    ∧ (∀ nm, data.filename d = Some nm → nm ≠ "" → info.filename di = nm)
    ∧ (∀ t, data.upload_date d = Some t → t ≠ "" → info.upload_date di = t)
    ∧ (∀ q, data.id d = Some (Js.Fin q) → ¬ (q == 0)%Q → info.id di = Js.Fin q)
    ∧ (∀ st, data.status d = Some st → st ≠ "" → info.status di = st)
    ∧ (∀ ks, data.keywords d = Some ks →
         keywords s' = ks ∧ info.keyword_count di = length ks)
    ∧ (∀ sm, data.summary d = Some sm → summary s' = sm)
    ∧ evaluation s' = data.evaluation d
    ∧ extractedMetadata s' = data.rfp_metadata d.
Proof.
  intros s'. subst s'.
  destruct (pending_run evs s f Hf) as (s2 & t2 & _ & _ & _ & _ & _ & _ & _ & ->).
  rewrite handleSubmit_resume_succeeded. eexists. split; [reflexivity|].
  unfold stateOf.
  cbn [fst snd keywords summary evaluation extractedMetadata info.filename
       info.upload_date info.id info.status info.keyword_count].
  split_and!; [| | | | | |done|done].
  - intros nm -> Hnm. by destruct nm.
  - intros t -> Ht. by destruct t.
  - intros q -> Hq. cbn. destruct (Qeq_bool q 0) eqn:E; [|done].
    by apply Qeq_bool_iff in E.
  - intros st -> Hst. by destruct st.
  - by intros ks ->.
  - intros sm ->. by destruct sm.
Qed.

Lemma present_fields_are_kept_witness :
  file chosenState = Some rfpPdf
  ∧ ∃ di,
      documentInfo (stateOf (submission [] sampleEnv (Resolved (Some fullData))
                               chosenState)) = Some di
      ∧ info.filename di = "stored-rfp.pdf"
      ∧ info.id di = Js.Fin 42.
Proof.
  split; [reflexivity|].
  destruct (present_fields_are_kept chosenState rfpPdf [] sampleEnv fullData eq_refl)
    as (di & Hdi & Hn & _ & Hi & _).
  exists di. split; [exact Hdi|]. split.
  - apply (Hn "stored-rfp.pdf"); [reflexivity|discriminate].
  - apply (Hi 42%Q); [reflexivity|discriminate].
Defined.

(** A field that is present but falsy is treated like an absent one: an id
    of 0 is replaced by the random id, an empty file name by the local one,
    an empty date by the current time, an empty status by 'PROCESSED'. *)
Theorem falsy_fields_get_defaults
    (s : State) (f : File) (evs : list ChangeEvent) (env : Env) (d : data.t)
    (Hf : file s = Some f) :
  ∃ di,
    documentInfo (stateOf (submission evs env (Resolved (Some d)) s)) = Some di
    ∧ (data.filename d = Some "" → info.filename di = fileName s)
    ∧ (data.upload_date d = Some "" → info.upload_date di = now env)
    ∧ (∀ q, data.id d = Some (Js.Fin q) → (q == 0)%Q → info.id di = randomId env)
    ∧ (data.id d = Some Js.NaN → info.id di = randomId env)
    ∧ (data.status d = Some "" → info.status di = "PROCESSED").
Proof.
  destruct (pending_run evs s f Hf) as (s2 & t2 & _ & _ & _ & _ & _ & _ & _ & ->).
  rewrite handleSubmit_resume_succeeded. eexists. split; [reflexivity|].
  cbn [info.filename info.upload_date info.id info.status].
  split_and!.
  - by intros ->.
  - by intros ->.
  - intros q -> Hq%Qeq_bool_iff. cbn. by rewrite Hq.
  - by intros ->.
  - by intros ->.
Qed.

Lemma falsy_fields_get_defaults_witness :
  file chosenState = Some rfpPdf
  ∧ ∃ di,
      documentInfo (stateOf (submission [] sampleEnv (Resolved (Some falsyData))
                               chosenState)) = Some di
      ∧ info.id di = Js.Fin 437
      ∧ info.filename di = "rfp-2024.PDF".
Proof.
  split; [reflexivity|].
  destruct (falsy_fields_get_defaults chosenState rfpPdf [] sampleEnv falsyData eq_refl)
    as (di & Hdi & Hn & _ & Hi & _).
  exists di. split; [exact Hdi|]. split.
  - apply (Hi 0%Q); reflexivity.
  - apply Hn. reflexivity.
Defined.

(** A successful response with no keyword, no summary, no evaluation and
    no metadata stores document info but shows none of it: the results
    container is gated on the other four fields, so the page shows the empty
    state, without an error. *)
Theorem bare_success_shows_empty_state
    (s : State) (f : File) (evs : list ChangeEvent) (env : Env) (d : data.t)
    (Hf : file s = Some f)
    (Hk : default [] (data.keywords d) = [])
    (Hsm : default "" (data.summary d) = "")
    (Hev : data.evaluation d = None)
    (Hm : data.rfp_metadata d = None) :
  let s' := stateOf (submission evs env (Resolved (Some d)) s) in
  is_Some (documentInfo s')
  ∧ isSuccess s' = true
  ∧ hasResults s' = false
  ∧ documentInfoShown s' = false
  ∧ errorShown s' = false
  ∧ emptyStateShown s' = true.
Proof.
  intros s'. subst s'.
  destruct (pending_run evs s f Hf) as (s2 & t2 & _ & _ & _ & _ & He & _ & _ & ->).
  rewrite handleSubmit_resume_succeeded.
  unfold stateOf, documentInfoShown, emptyStateShown, errorShown, hasResults.
  cbn [fst snd keywords summary evaluation extractedMetadata documentInfo
       isSuccess error loading].
  rewrite Hk, Hev, Hm, He.
  assert (or_string (data.summary d) "" = "") as ->.
  { destruct (data.summary d) as [sm|]; [|done]. simpl in Hsm. by subst. }
  by repeat split.
Qed.

Lemma bare_success_shows_empty_state_witness :
  file chosenState = Some rfpPdf
  ∧ emptyStateShown (stateOf (submission [] sampleEnv (Resolved (Some emptyData))
                                chosenState)) = true.
Proof.
  split; [reflexivity|].
  apply (bare_success_shows_empty_state chosenState rfpPdf [] sampleEnv emptyData
           eq_refl eq_refl eq_refl eq_refl eq_refl).
Defined.

(** ** Which names pass the extension test *)




Lemma accepted_iff_extensionIn s f rest :
  accepted f (handleFileChange (mkChange (f :: rest)) s)
  ↔ extensionIn allowedExtensions f.
Proof.
  split.
  - intros (Hfile & _). destruct (extensionIn_dec allowedExtensions f) as [H|H]; [done|].
    by rewrite (handleFileChange_refused _ _ _ H) in Hfile.
  - intros H. by rewrite (handleFileChange_allowed _ _ _ H).
Qed.

Lemma rejected_iff_not_extensionIn s f rest :
  rejected (handleFileChange (mkChange (f :: rest)) s)
  ↔ ¬ extensionIn allowedExtensions f.
Proof.
  split.
  - intros (Htrace & _) H. by rewrite (handleFileChange_allowed _ _ _ H) in Htrace.
  - intros H. by rewrite (handleFileChange_refused _ _ _ H).
Qed.

(** Only the text after the last dot counts, in any letter case: a name
    [base.ext] is accepted exactly when [ext], lower-cased, is pdf, docx or
    txt, whatever [base] holds (other dots and extensions included). *)
Theorem last_segment_decides
    (s : State) (base ext body : string) (rest : list File)
    (Hext : "."%char ∉ list_ascii_of_string ext) :
  let f := mkFile (base +:+ "." +:+ ext) body in
  accepted f (handleFileChange (mkChange (f :: rest)) s)
  ↔ Js.toLowerCase ext ∈ ["pdf"; "docx"; "txt"].
Proof.
  intros f. subst f. rewrite accepted_iff_extensionIn. unfold extensionIn.
  change (base +:+ "." +:+ ext) with (base ++ String "." ext)%string.
  rewrite (fileExtension_dotted _ _ _ Hext). split.
  - by intros (? & [= <-] & Hin).
  - intros Hin. by eexists.
Qed.

Lemma last_segment_decides_witness :
  ("."%char ∉ list_ascii_of_string "exe")
  ∧ ¬ accepted (mkFile "rfp.pdf.exe" "MZ")
        (handleFileChange (mkChange [mkFile "rfp.pdf.exe" "MZ"]) initialState).
Proof.
  assert ("."%char ∉ list_ascii_of_string "exe") as Hext.
  { cbn. rewrite !elem_of_cons, elem_of_nil. by intros [?|[?|[?|[]]]]. }
  split; [exact Hext|].
  intros Hacc.
  apply (last_segment_decides initialState "rfp.pdf" "exe" "MZ" [] Hext) in Hacc.
  cbn in Hacc. rewrite !elem_of_cons, elem_of_nil in Hacc.
  by destruct Hacc as [?|[?|[?|[]]]].
Defined.

(** A name without any dot is taken as its own extension: such a file is
    accepted exactly when its whole name, lower-cased, is pdf, docx or txt. *)
Theorem undotted_name_is_its_extension
    (s : State) (nm body : string) (rest : list File)
    (Hnm : "."%char ∉ list_ascii_of_string nm) :
  let f := mkFile nm body in
  accepted f (handleFileChange (mkChange (f :: rest)) s)
  ↔ Js.toLowerCase nm ∈ ["pdf"; "docx"; "txt"].
Proof.
  intros f. subst f. rewrite accepted_iff_extensionIn. unfold extensionIn.
  rewrite (fileExtension_undotted _ _ Hnm). split.
  - by intros (? & [= <-] & Hin).
  - intros Hin. by eexists.
Qed.

Lemma undotted_name_is_its_extension_witness :
  ("."%char ∉ list_ascii_of_string "TXT")
  ∧ accepted (mkFile "TXT" "no extension at all")
      (handleFileChange (mkChange [mkFile "TXT" "no extension at all"]) initialState).
Proof.
  assert ("."%char ∉ list_ascii_of_string "TXT") as Hnm.
  { cbn. rewrite !elem_of_cons, elem_of_nil. by intros [?|[?|[?|[]]]]. }
  split; [exact Hnm|].
  apply (undotted_name_is_its_extension initialState "TXT" "no extension at all" [] Hnm).
  cbn. rewrite !elem_of_cons. tauto.
Defined.

(** A name that ends in a dot has the empty extension and is always
    refused, and so is the empty name. *)
Theorem trailing_dot_is_refused (s : State) (base body : string) (rest : list File) :
  rejected (handleFileChange (mkChange (mkFile (base +:+ ".") body :: rest)) s)
  ∧ rejected (handleFileChange (mkChange (mkFile "" body :: rest)) s).
Proof.
  assert (∀ f, fileExtension f = Some "" →
               rejected (handleFileChange (mkChange (f :: rest)) s)) as Hempty.
  { intros f Hf. apply rejected_iff_not_extensionIn. intros (ext & Hext & Hin).
    rewrite Hf in Hext. injection Hext as <-.
    unfold allowedExtensions in Hin. rewrite !elem_of_cons, elem_of_nil in Hin.
    by destruct Hin as [?|[?|[?|[]]]]. }
  split; apply Hempty; [|reflexivity].
  change (base +:+ ".") with (base ++ String "." "")%string.
  rewrite fileExtension_dotted; [done|]. cbn. apply not_elem_of_nil.
Qed.



(** ** More on the decision badge *)

Lemma renderDecisionBadge_key decision :
  renderDecisionBadge decision = renderDecisionBadge (Js.str (Js.toPropertyKey decision)).
Proof. reflexivity. Qed.

(** The label and the style of a badge always belong together: the badge
    is one of the three presentations as a whole, or label and style are both
    the same inherited property.  A label is never paired with the style of
    another decision. *)
Theorem badge_label_matches_style (decision : Js.value) :
  className (renderDecisionBadge decision) = "decisionBadge"
  ∧ (renderDecisionBadge decision = acceptBadge
     ∨ renderDecisionBadge decision = rejectBadge
     ∨ renderDecisionBadge decision = reviewBadge
     ∨ ∃ k, k ∈ Js.Object_prototype
            ∧ style (renderDecisionBadge decision) = Js.Inherited k
            ∧ children (renderDecisionBadge decision) = Js.Inherited k).
Proof.
  split; [done|]. rewrite renderDecisionBadge_key.
  set (k := Js.toPropertyKey decision).
  destruct (decide (k = "ACCEPT")) as [->|Ha]; [by left|].
  destruct (decide (k = "REJECT")) as [->|Hr]; [by right; left|].
  destruct (decide (k ∈ Js.Object_prototype)) as [Hp|Hp].
  - right; right; right. exists k. split; [done|].
    by rewrite (renderDecisionBadge_inherited _ Hp).
  - right; right; left. apply renderDecisionBadge_fallback.
    cbn [Js.toPropertyKey]. rewrite elem_of_app, !elem_of_cons, elem_of_nil.
    tauto.
Qed.

(** ** More on formatINR *)

Lemma round_below_half q :
  (0 < q)%Q → (q < 1 # 2)%Q → Intl.round q = 0%N.
Proof.
  intros H0 H1. unfold Intl.round.
  assert (Qfloor (Qabs q + (1 # 2)) = 0%Z) as ->; [|done].
  rewrite Qabs_pos by by apply Qlt_le_weak.
  assert (0 ≤ Qfloor (q + (1 # 2)))%Z as Hlo.
  { change 0%Z with (Qfloor 0). apply Qfloor_resp_le.
    apply Qlt_le_weak. eapply Qlt_trans; [exact H0|].
    rewrite <- (Qplus_0_r q) at 1. by apply Qplus_lt_r. }
  assert (Qfloor (q + (1 # 2)) < 1)%Z as Hhi.
  { rewrite Zlt_Qlt. eapply Qle_lt_trans; [apply Qfloor_le|].
    apply (Qlt_le_trans _ ((1 # 2) + (1 # 2))); [by apply Qplus_lt_l|discriminate]. }
  lia.
Qed.

(** A positive amount below half a rupee is not 'Unknown': it is rounded
    and shown as zero rupees. *)
Theorem small_amount_shows_zero (q : Q) (Hpos : (0 < q)%Q) (Hsmall : (q < 1 # 2)%Q) :
  formatINR (Some (Js.Fin q)) = "₹0".
Proof.
  rewrite (formatINR_positive _ Hpos), (round_below_half _ Hpos Hsmall).
  reflexivity.
Qed.

Lemma small_amount_shows_zero_witness :
  (0 < 1 # 3)%Q ∧ (1 # 3 < 1 # 2)%Q ∧ formatINR (Some (Js.Fin (1 # 3))) = "₹0".
Proof.
  split; [reflexivity|]. split; [reflexivity|].
  apply (small_amount_shows_zero (1 # 3)); reflexivity.
Defined.

(** [formatINR] answers 'Unknown' for exactly these values: an absent
    one, NaN, minus infinity, and the numbers that are zero or negative.
    Every other value gets a currency string. *)
Theorem formatINR_Unknown_iff (value : option Js.number) :
  formatINR value = "Unknown"
  ↔ value = None ∨ value = Some Js.NaN ∨ value = Some Js.NegInfinity
    ∨ ∃ q, value = Some (Js.Fin q) ∧ (q <= 0)%Q.
Proof.
  split.
  - destruct value as [[| | |q]|]; intros H; [tauto|discriminate|tauto| |tauto].
    destruct (Qlt_le_dec 0 q) as [Hq|Hq]; [|by right; right; right; exists q].
    rewrite (formatINR_positive _ Hq) in H. discriminate.
  - intros [->|[->|[->|(q & -> & Hq)]]]; try reflexivity.
    unfold formatINR, Js.le_zero. apply Qle_bool_iff in Hq. rewrite Hq.
    by rewrite orb_true_r.
Qed.

(** A decision that is not a string (absent, [null], a boolean) always
    gets the REVIEW presentation, and so does every string other than ACCEPT
    and REJECT that names no property of [Object.prototype]; the match is
    case-sensitive, so ['accept'] is shown as REVIEW. *)
Theorem unrecognised_decision_is_review (decision : Js.value)
    (Hstr : ∀ k, decision = Js.str k →
                 k ∉ ["ACCEPT"; "REJECT"] ++ Js.Object_prototype) :
  renderDecisionBadge decision = reviewBadge
  ∧ style (renderDecisionBadge decision)
    = Js.Own (mkStyle "var(--warning-bg)" "var(--warning-color)")
  ∧ children (renderDecisionBadge decision) = Js.Own "REVIEW ⚠️".
Proof.
  assert (renderDecisionBadge decision = reviewBadge) as ->; [|done].
  destruct decision as [| |[]|k]; try reflexivity.
  apply renderDecisionBadge_fallback. by apply Hstr.
Qed.

Lemma unrecognised_decision_is_review_witness :
  renderDecisionBadge (Js.str "accept") = reviewBadge
  ∧ renderDecisionBadge Js.null = reviewBadge.
Proof.
  split.
  - apply (unrecognised_decision_is_review (Js.str "accept")).
    intros k [= <-] H. unfold Js.Object_prototype in H. cbn in H.
    rewrite !elem_of_cons, elem_of_nil in H.
    repeat (destruct H as [H|H]; [discriminate|]). done.
  - apply (unrecognised_decision_is_review Js.null). intros k Hk. discriminate.
Defined.
